(** * DolbyIOVirtualWorldsDebug: the inline logic of the vendored headers
      and the project scaffold, embedded in Rocq.

    Sources embedded here:
    - [dolbyio/comms/conference.h]: [conference_status],
      [conference_status_updated] and its [is_ended];
    - [dolbyio/comms/logger_sink.h]: [logger_sink];
    - [Source/DolbyIODebug.Target.cs], [Source/DolbyIODebugEditor.Target.cs];
    - the class heads of the tree, [DolbyIODebugGameModeBase.h] and the
      two targets included;
    - [dolbyio/comms/media_engine/media_engine.h]: [video_track],
      [generic_video_track], [camera_device];
    - [dolbyio/comms/audio_capture_mode.h]: [standard]. *)

From Stdlib Require Import ZArith List String Bool Lia.
Import ListNotations.
Local Open Scope Z_scope.

(** ** conference.h *)

Module Conference.

(** [enum class conference_status], in declaration order. *)
Inductive conference_status : Type :=
| creating
| created
| joining
| joined
| leaving
| left
| destroyed
| error.

(** The enumerators carry no initialiser, so their values count from 0. *)
Definition underlying (s : conference_status) : Z :=
  match s with
  | creating => 0
  | created => 1
  | joining => 2
  | joined => 3
  | leaving => 4
  | left => 5
  | destroyed => 6
  | error => 7
  end.

(** [==] on a scoped enumeration compares the enumerators' values. *)
Definition status_eq (a b : conference_status) : bool :=
  underlying a =? underlying b.

(** [struct conference_status_updated]. *)
Record conference_status_updated : Type := Build_event {
  status : conference_status;
  id : string
}.

(** The constructor assigns both members in its body. *)
Definition make_conference_status_updated
    (value : conference_status) (conf_id : string) : conference_status_updated :=
  {| status := value; id := conf_id |}.

(** The default argument [conf_id = std::string()]. *)
Definition make_conference_status_updated_default
    (value : conference_status) : conference_status_updated :=
  make_conference_status_updated value EmptyString.

(** [bool is_ended() const]. *)
Definition is_ended (e : conference_status_updated) : bool :=
  status_eq (status e) left
  || status_eq (status e) error
  || status_eq (status e) destroyed.

End Conference.

(** ** logger_sink.h *)

Module LoggerSink.

Section WithLogLevel.

(** [log_level] comes from [dolbyio/comms/log_level.h], which is not part of
    the tree: the enumeration and the integer value of each enumerator are
    taken as given. *)
Variable log_level : Type.
Variable level_value : log_level -> Z.

(** [<=] on a scoped enumeration compares the enumerators' values. *)
Definition level_le (a b : log_level) : bool :=
  level_value a <=? level_value b.

(** The data of a [logger_sink]; [log] is pure virtual and left to the
    classes that derive from it. *)
Record logger_sink : Type := Build_sink {
  level_ : log_level
}.

(** [logger_sink(log_level level) : level_(level) {}] *)
Definition make_logger_sink (level : log_level) : logger_sink :=
  {| level_ := level |}.

(** [bool is_enabled(log_level level) const { return level <= level_; }] *)
Definition is_enabled (this : logger_sink) (level : log_level) : bool :=
  level_le level (level_ this).

(** [log_level get_level() const { return level_; }] *)
Definition get_level (this : logger_sink) : log_level :=
  level_ this.

(** [void set_level(log_level level) { level_ = level; }] *)
Definition set_level (this : logger_sink) (level : log_level) : logger_sink :=
  {| level_ := level |}.

End WithLogLevel.

Arguments level_ {log_level} _.
Arguments make_logger_sink {log_level} _.
Arguments get_level {log_level} _.
Arguments set_level {log_level} _ _.
Arguments is_enabled {log_level} _ _ _.
Arguments level_le {log_level} _ _ _.

End LoggerSink.

(** ** Source/DolbyIODebug.Target.cs and Source/DolbyIODebugEditor.Target.cs *)

Module BuildTargets.

Section WithUnrealBuildTool.

(** [TargetRules], [TargetInfo] and the three enumerations belong to
    UnrealBuildTool, not to the project: they are taken as given, with the
    enumerators the two constructors name. *)
Variables TargetType BuildSettingsVersion EngineIncludeOrderVersion : Type.
Variables TargetInfo OtherRules : Type.
Variables Game Editor : TargetType.
Variable V2 : BuildSettingsVersion.
Variable Unreal5_1 : EngineIncludeOrderVersion.

(** The state of a [TargetRules] object: the four properties the
    constructors touch, and [other] for everything else it holds. *)
Record TargetRules : Type := Build_rules {
  Type_ : TargetType;
  DefaultBuildSettings : BuildSettingsVersion;
  IncludeOrderVersion : EngineIncludeOrderVersion;
  ExtraModuleNames : list string;
  other : OtherRules
}.

(** The base constructor call [: base(Target)]. *)
Variable TargetRules_base : TargetInfo -> TargetRules.

(** The assignments of a constructor body, one statement each. *)
Definition set_Type (r : TargetRules) (v : TargetType) : TargetRules :=
  {| Type_ := v;
     DefaultBuildSettings := DefaultBuildSettings r;
     IncludeOrderVersion := IncludeOrderVersion r;
     ExtraModuleNames := ExtraModuleNames r;
     other := other r |}.

Definition set_DefaultBuildSettings
    (r : TargetRules) (v : BuildSettingsVersion) : TargetRules :=
  {| Type_ := Type_ r;
     DefaultBuildSettings := v;
     IncludeOrderVersion := IncludeOrderVersion r;
     ExtraModuleNames := ExtraModuleNames r;
     other := other r |}.

Definition set_IncludeOrderVersion
    (r : TargetRules) (v : EngineIncludeOrderVersion) : TargetRules :=
  {| Type_ := Type_ r;
     DefaultBuildSettings := DefaultBuildSettings r;
     IncludeOrderVersion := v;
     ExtraModuleNames := ExtraModuleNames r;
     other := other r |}.

(** [ExtraModuleNames.Add(name)]: [List<string>.Add] appends at the end. *)
Definition ExtraModuleNames_Add (r : TargetRules) (name : string) : TargetRules :=
  {| Type_ := Type_ r;
     DefaultBuildSettings := DefaultBuildSettings r;
     IncludeOrderVersion := IncludeOrderVersion r;
     ExtraModuleNames := ExtraModuleNames r ++ [name];
     other := other r |}.

(** [public DolbyIODebugTarget(TargetInfo Target) : base(Target)] *)
Definition DolbyIODebugTarget (Target : TargetInfo) : TargetRules :=
  let r0 := TargetRules_base Target in
  let r1 := set_Type r0 Game in
  let r2 := set_DefaultBuildSettings r1 V2 in
  let r3 := set_IncludeOrderVersion r2 Unreal5_1 in
  ExtraModuleNames_Add r3 "DolbyIODebug".

(** [public DolbyIODebugEditorTarget(TargetInfo Target) : base(Target)] *)
Definition DolbyIODebugEditorTarget (Target : TargetInfo) : TargetRules :=
  let r0 := TargetRules_base Target in
  let r1 := set_Type r0 Editor in
  let r2 := set_DefaultBuildSettings r1 V2 in
  let r3 := set_IncludeOrderVersion r2 Unreal5_1 in
  ExtraModuleNames_Add r3 "DolbyIODebug".

End WithUnrealBuildTool.

Arguments Type_ {_ _ _ _} _.
Arguments DefaultBuildSettings {_ _ _ _} _.
Arguments IncludeOrderVersion {_ _ _ _} _.
Arguments ExtraModuleNames {_ _ _ _} _.
Arguments other {_ _ _ _} _.
Arguments DolbyIODebugTarget {_ _ _ _ _} _ _ _ _ _.
Arguments DolbyIODebugEditorTarget {_ _ _ _ _} _ _ _ _ _.

End BuildTargets.

(** ** Class heads and member function declarations of the tree *)

Module Headers.

Local Open Scope string_scope.

(** Every class head of the tree that has a base-specifier list, in C++ and
    in C#: the class, then its direct bases as the head writes them. *)
Definition class_heads : list (string * list string) :=
  [ ("ADolbyIODebugGameModeBase", ["AGameModeBase"]);
    ("DolbyIODebugTarget", ["TargetRules"]);
    ("DolbyIODebugEditorTarget", ["TargetRules"]);
    ("video_processor",
       ["std::enable_shared_from_this<video_processor>";
        "dolbyio::comms::video_frame_handler"]);
    ("video_processor::exception", ["dolbyio::comms::exception"]);
    ("video_frame_buffer_i420", ["video_frame_buffer_i420_interface"]);
    ("video_frame_buffer_nv12", ["video_frame_buffer_nv12_interface"]);
    ("video_frame_buffer_argb", ["video_frame_buffer_argb_interface"]);
    ("video_frame_buffer_argb_interface", ["video_frame_buffer"]);
    ("video_frame_buffer_i420_interface", ["video_frame_buffer"]);
    ("video_frame_buffer_nv12_interface", ["video_frame_buffer"]);
    ("video_frame_buffer_native_interface", ["video_frame_buffer"]);
    ("remote_video_track", ["video_track"]);
    ("local_video_track", ["video_track"]);
    ("generic_video_track", ["video_track"]) ].

Fixpoint bases_in (heads : list (string * list string)) (c : string)
    : list string :=
  match heads with
  | [] => []
  | (n, bs) :: rest => if String.eqb n c then bs else bases_in rest c
  end.

(** The direct bases of a class; none for a head without base-specifiers. *)
Definition bases_of (c : string) : list string := bases_in class_heads c.

(** The length of the longest chain of bases above a class. *)
Fixpoint height (fuel : nat) (c : string) : nat :=
  match fuel with
  | O => O
  | S k =>
      match bases_of c with
      | [] => O
      | bs => S (list_max (map (height k) bs))
      end
  end.

Definition hierarchy_height (c : string) : nat :=
  height (List.length class_heads) c.

(** [ancestor c a]: [a] is a direct or an indirect base of [c]. *)
Inductive ancestor : string -> string -> Prop :=
| ancestor_direct (c b : string) :
    In b (bases_of c) -> ancestor c b
| ancestor_indirect (c b a : string) :
    In b (bases_of c) -> ancestor b a -> ancestor c a.

(** How a header gives a member function. *)
Inductive definition_site : Type :=
| inline_body        (* the body is written in the header *)
| defaulted          (* [= default] *)
| pure_virtual       (* [= 0]: implemented by a class outside the header *)
| declaration_only.  (* declared here, defined in the SDK binary *)

Record member_function : Type := Build_member_function {
  owner : string;
  fname : string;
  site : definition_site
}.

(** The member functions of [logger_sink.h], of [conference_status_updated]
    in [conference.h], of [video.h] and of [video_frame_buffer_i420.h], in
    the order of the files. *)
Definition declared_operations : list member_function :=
  [ Build_member_function "logger_sink" "logger_sink" inline_body;
    Build_member_function "logger_sink" "~logger_sink" defaulted;
    Build_member_function "logger_sink" "is_enabled" inline_body;
    Build_member_function "logger_sink" "get_level" inline_body;
    Build_member_function "logger_sink" "set_level" inline_body;
    Build_member_function "logger_sink" "log" pure_virtual;
    Build_member_function "conference_status_updated"
      "conference_status_updated" inline_body;
    Build_member_function "conference_status_updated" "is_ended" inline_body;
    Build_member_function "local_video" "start" pure_virtual;
    Build_member_function "local_video" "stop" pure_virtual;
    Build_member_function "remote_video" "set_video_sink" pure_virtual;
    Build_member_function "video" "local" pure_virtual;
    Build_member_function "video" "remote" pure_virtual;
    Build_member_function "video_frame_buffer_i420"
      "~video_frame_buffer_i420" inline_body;
    Build_member_function "video_frame_buffer_i420" "create" declaration_only;
    Build_member_function "video_frame_buffer_i420" "copy" declaration_only ].

End Headers.

(** ** media_engine.h: video tracks and camera devices *)

Module MediaEngine.

(** [struct video_track]; [is_screenshare] is [false] unless set. *)
Record video_track : Type := Build_video_track {
  peer_id : string;
  stream_id : string;
  track_id : string;
  sdp_track_id : string;
  is_screenshare : bool
}.

(** [operator<] and [operator==] of [std::string]: the bytes compared one by
    one as unsigned values, a proper prefix being the smaller. *)
Definition string_lt (a b : string) : bool := String.ltb a b.
Definition string_eq (a b : string) : bool := String.eqb a b.

(** [bool operator<(const video_track& other) const noexcept] *)
Definition video_track_lt (this other : video_track) : bool :=
  string_lt (sdp_track_id this) (sdp_track_id other).

(** [bool operator==(const video_track& other) const noexcept] *)
Definition video_track_eq (this other : video_track) : bool :=
  string_eq (sdp_track_id this) (sdp_track_id other).

(** [struct remote_video_track : public video_track {};] and
    [struct local_video_track : public video_track {};] add nothing to
    their base. *)
Definition remote_video_track : Type := video_track.
Definition local_video_track : Type := video_track.

(** [struct generic_video_track : public video_track]: the base subobject
    and the [remote] flag. *)
Record generic_video_track : Type := Build_generic_video_track {
  track : video_track;
  remote : bool
}.

(** [generic_video_track(const remote_video_track& other)
      : video_track(other), remote(true) {}] *)
Definition generic_of_remote (other : remote_video_track)
    : generic_video_track :=
  {| track := other; remote := true |}.

(** [generic_video_track(const local_video_track& other)
      : video_track(other), remote(false) {}] *)
Definition generic_of_local (other : local_video_track)
    : generic_video_track :=
  {| track := other; remote := false |}.

(** The comparison operators a [generic_video_track] inherits: both
    operands convert to their [video_track] base. *)
Definition generic_video_track_eq (a b : generic_video_track) : bool :=
  video_track_eq (track a) (track b).

Definition generic_video_track_lt (a b : generic_video_track) : bool :=
  video_track_lt (track a) (track b).

(** [struct camera_device] *)
Record camera_device : Type := Build_camera_device {
  display_name : string;
  unique_id : string
}.

(** [bool operator<(const camera_device& other) const noexcept] *)
Definition camera_device_lt (this other : camera_device) : bool :=
  string_lt (unique_id this) (unique_id other).

(** [bool operator==(const camera_device& other) const noexcept] *)
Definition camera_device_eq (this other : camera_device) : bool :=
  string_eq (unique_id this) (unique_id other).

End MediaEngine.

(** ** conference.h: deprecated_field *)

Module DeprecatedField.

Section WithValueType.

(** The field's value type and the value [T{}] of its value-initialisation. *)
Variable T : Type.
Variable T_default : T.

(** [template <typename T> struct deprecated_field] *)
Record deprecated_field : Type := Build_deprecated_field {
  has_value_ : bool;
  val_ : T
}.

(** [deprecated_field() = default;] with the member initialisers
    [has_value_ = false] and [val_{}]. *)
Definition make_default : deprecated_field :=
  {| has_value_ := false; val_ := T_default |}.

(** [deprecated_field(const T& val) : has_value_(true), val_(val) {}] *)
Definition make_value (val : T) : deprecated_field :=
  {| has_value_ := true; val_ := val |}.

(** [const T& operator*() const { return val_; }] *)
Definition deref (this : deprecated_field) : T := val_ this.

(** [T& operator*() { return val_; }], used on the left of an assignment:
    [*field = v] writes [val_] and nothing else. *)
Definition assign_through_deref (this : deprecated_field) (v : T)
    : deprecated_field :=
  {| has_value_ := has_value_ this; val_ := v |}.

(** [operator std::optional<T>() const] *)
Definition to_optional (this : deprecated_field) : option T :=
  if has_value_ this then Some (val_ this) else None.

(** [bool has_value() const { return has_value_; }] *)
Definition has_value (this : deprecated_field) : bool := has_value_ this.

End WithValueType.

Arguments has_value_ {T} _.
Arguments val_ {T} _.
Arguments make_default {T} _.
Arguments make_value {T} _.
Arguments deref {T} _.
Arguments assign_through_deref {T} _ _.
Arguments to_optional {T} _.
Arguments has_value {T} _.

End DeprecatedField.

(** ** audio_capture_mode.h *)

Module AudioCaptureMode.

(** [enum class noise_reduction] *)
Inductive noise_reduction : Type :=
| high
| low.

Definition noise_reduction_value (n : noise_reduction) : Z :=
  match n with
  | high => 0
  | low => 1
  end.

(** [enum class voice_font], in declaration order. *)
Inductive voice_font : Type :=
| none
| masculine
| feminine
| helium
| dark_modulation
| broken_robot
| interference
| abyss
| wobble
| starship_captain
| nervous_robot
| swarm
| am_radio.

Definition voice_font_value (v : voice_font) : Z :=
  match v with
  | none => 0
  | masculine => 1
  | feminine => 2
  | helium => 3
  | dark_modulation => 4
  | broken_robot => 5
  | interference => 6
  | abyss => 7
  | wobble => 8
  | starship_captain => 9
  | nervous_robot => 10
  | swarm => 11
  | am_radio => 12
  end.

(** [struct unprocessed], which has no member. *)
Inductive unprocessed : Type :=
| Build_unprocessed.

(** [bool operator==(const unprocessed&) const { return true; }] *)
Definition unprocessed_eq (this other : unprocessed) : bool := true.

(** [struct standard] *)
Record standard : Type := Build_standard {
  reduce_noise : noise_reduction;
  apply_voice_font : voice_font
}.

(** [constexpr standard(noise_reduction reduce_noise,
                        voice_font apply_voice_font = voice_font::none)] *)
Definition make_standard
    (reduce_noise : noise_reduction) (apply_voice_font : voice_font)
    : standard :=
  {| reduce_noise := reduce_noise; apply_voice_font := apply_voice_font |}.

(** The constructor called with one argument. *)
Definition make_standard_default (reduce_noise : noise_reduction) : standard :=
  make_standard reduce_noise none.

(** [bool operator==(const standard& rhs) const] *)
Definition standard_eq (this rhs : standard) : bool :=
  (noise_reduction_value (reduce_noise this)
     =? noise_reduction_value (reduce_noise rhs))
  && (voice_font_value (apply_voice_font this)
        =? voice_font_value (apply_voice_font rhs)).

End AudioCaptureMode.

(** * Theorems *)

(** ** conference_status_updated::is_ended *)

Module ConferenceFacts.
Import Conference.

Lemma status_eq_true_iff (a b : conference_status) :
  status_eq a b = true <-> a = b.
Proof.
  unfold status_eq. split.
  - intro H. apply Z.eqb_eq in H.
    destruct a, b; simpl in H; solve [reflexivity | discriminate H].
  - intros ->. apply Z.eqb_refl.
Qed.

(** C2: [is_ended] returns true exactly for the statuses [left], [error] and
    [destroyed]; for [creating], [created], [joining], [joined] and
    [leaving] it returns false, whatever the conference id. *)
Theorem is_ended_true_iff_left_error_destroyed :
  forall e : conference_status_updated,
    (is_ended e = true <->
       status e = left \/ status e = error \/ status e = destroyed)
    /\ (forall conf_id : string,
          is_ended (make_conference_status_updated creating conf_id) = false
          /\ is_ended (make_conference_status_updated created conf_id) = false
          /\ is_ended (make_conference_status_updated joining conf_id) = false
          /\ is_ended (make_conference_status_updated joined conf_id) = false
          /\ is_ended (make_conference_status_updated leaving conf_id) = false).
Proof.
  intro e. split.
  - unfold is_ended. rewrite !orb_true_iff, !status_eq_true_iff. tauto.
  - intro conf_id. repeat split; reflexivity.
Qed.

End ConferenceFacts.

(** ** logger_sink *)

Module LoggerSinkFacts.
Import LoggerSink.

Section WithLogLevel.

Variable log_level : Type.
Variable level_value : log_level -> Z.

Lemma is_enabled_spec (s : logger_sink log_level) (x : log_level) :
  is_enabled level_value s x = true <->
  level_value x <= level_value (get_level s).
Proof. unfold is_enabled, level_le, get_level. apply Z.leb_le. Qed.

Lemma is_enabled_own_level (l : log_level) :
  is_enabled level_value (make_logger_sink l) l = true.
Proof. apply is_enabled_spec. simpl. lia. Qed.

End WithLogLevel.

(** C5: a sink constructed with level [l] reports [l]; [is_enabled x] holds
    exactly when [x <= ] the stored level, so the enabled levels are
    downward closed; after [set_level l2] the sink reports [l2] and
    [is_enabled x] is [x <= l2]. *)
Theorem logger_sink_level_round_trip :
  forall (log_level : Type) (level_value : log_level -> Z)
         (s : logger_sink log_level) (l l2 x y : log_level),
    get_level (make_logger_sink l) = l
    /\ (is_enabled level_value (make_logger_sink l) x = true <->
          level_value x <= level_value l)
    /\ (is_enabled level_value s x = true <->
          level_value x <= level_value (get_level s))
    /\ (is_enabled level_value s x = true ->
        level_value y <= level_value x ->
        is_enabled level_value s y = true)
    /\ get_level (set_level s l2) = l2
    /\ is_enabled level_value (set_level s l2) x
       = (level_value x <=? level_value l2).
Proof.
  intros log_level level_value s l l2 x y.
  split; [reflexivity|].
  split; [apply (is_enabled_spec log_level level_value (make_logger_sink l) x)|].
  split; [apply is_enabled_spec|].
  split; [|split; reflexivity].
  rewrite !is_enabled_spec. lia.
Qed.

End LoggerSinkFacts.

(** ** The build targets *)

Module BuildTargetsFacts.
Import BuildTargets.

Section WithUnrealBuildTool.

Variables TargetType BuildSettingsVersion EngineIncludeOrderVersion : Type.
Variables TargetInfo OtherRules : Type.
Variables Game Editor : TargetType.
Variable V2 : BuildSettingsVersion.
Variable Unreal5_1 : EngineIncludeOrderVersion.
Variable TargetRules_base :
  TargetInfo ->
  TargetRules TargetType BuildSettingsVersion EngineIncludeOrderVersion
              OtherRules.


End WithUnrealBuildTool.

End BuildTargetsFacts.

(** ** What the headers implement themselves *)

Module HeadersFacts.
Import Headers.
Local Open Scope string_scope.

(** C1, as stated, fails: [conference_status_updated::is_ended] is one of
    the declared operations, its body is in the header, and it tells a
    conference that was left from one that is joined. *)
Lemma is_ended_is_implemented_in_the_header :
  ~ (forall f, In f declared_operations -> site f <> inline_body)
  /\ Conference.is_ended
       (Conference.make_conference_status_updated Conference.left "") = true
  /\ Conference.is_ended
       (Conference.make_conference_status_updated Conference.joined "") = false.
Proof.
  split; [|split; reflexivity].
  intro H.
  apply (H (Build_member_function "conference_status_updated" "is_ended"
              inline_body)); [|reflexivity].
  unfold declared_operations. simpl. tauto.
Qed.

(** C1, amended: the vendored headers are not declarations only.  They
    define functions whose input/output behaviour the tree itself fixes and
    a test can check: [conference_status_updated::is_ended] returns true
    exactly for the statuses [left], [error] and [destroyed], whatever the
    conference id, so it is true on some events and false on others;
    [logger_sink::is_enabled] returns true exactly for the levels not above
    the stored one, a sink enables the level it was constructed with,
    [get_level] returns that level, and after [set_level l] it returns
    [l]. *)
Theorem headers_implement_some_operations :
  forall (e : Conference.conference_status_updated)
         (log_level : Type) (level_value : log_level -> Z)
         (s : LoggerSink.logger_sink log_level) (l x : log_level),
    (Conference.is_ended e = true <->
       Conference.status e = Conference.left
       \/ Conference.status e = Conference.error
       \/ Conference.status e = Conference.destroyed)
    /\ (forall conf_id,
          Conference.is_ended
            (Conference.make_conference_status_updated
               (Conference.status e) conf_id)
          = Conference.is_ended e)
    /\ (exists e1 e2, Conference.is_ended e1 = true
                      /\ Conference.is_ended e2 = false)
    /\ (LoggerSink.is_enabled level_value s x = true <->
          level_value x <= level_value (LoggerSink.get_level s))
    /\ LoggerSink.is_enabled level_value (LoggerSink.make_logger_sink l) l
       = true
    /\ LoggerSink.get_level (LoggerSink.make_logger_sink l) = l
    /\ LoggerSink.get_level (LoggerSink.set_level s l) = l.
Proof.
  intros e log_level level_value s l x.
  split.
  { unfold Conference.is_ended.
    rewrite !orb_true_iff, !ConferenceFacts.status_eq_true_iff. tauto. }
  split; [intro conf_id; reflexivity|].
  split.
  { exists (Conference.make_conference_status_updated Conference.left ""),
           (Conference.make_conference_status_updated Conference.joined "").
    split; reflexivity. }
  split; [apply LoggerSinkFacts.is_enabled_spec|].
  split; [apply LoggerSinkFacts.is_enabled_own_level|].
  split; reflexivity.
Qed.

(** A class with a base is one of the class heads listed. *)
Lemma bases_in_nonempty (heads : list (string * list string)) (c b : string) :
  In b (bases_in heads c) -> exists bs, In (c, bs) heads /\ In b bs.
Proof.
  induction heads as [| [n bs] rest IH]; simpl.
  - intros [].
  - destruct (String.eqb_spec n c) as [-> | Hne].
    + intro Hb. exists bs. split; [left; reflexivity | exact Hb].
    + intro Hb. destruct (IH Hb) as [bs' [Hin Hb']].
      exists bs'. split; [right; exact Hin | exact Hb'].
Qed.

Lemma height_decreases_to_bases (c b : string) :
  In b (bases_of c) -> (hierarchy_height b < hierarchy_height c)%nat.
Proof.
  intro Hb. apply bases_in_nonempty in Hb. destruct Hb as [bs [Hin Hb]].
  unfold class_heads in Hin. simpl in Hin.
  repeat (destruct Hin as [Hin | Hin];
          [ injection Hin as <- <-; simpl in Hb;
            repeat (destruct Hb as [<- | Hb]; [vm_compute; lia|]);
            destruct Hb
          | ]).
  destruct Hin.
Qed.


Lemma bases_in_nonempty_head (heads : list (string * list string))
    (c : string) :
  bases_in heads c <> [] -> In c (map fst heads).
Proof.
  induction heads as [| [n bs] rest IH]; simpl.
  - intro H. contradiction H. reflexivity.
  - destruct (String.eqb_spec n c) as [-> | _].
    + intros _. left. reflexivity.
    + intro H. right. apply IH. exact H.
Qed.

Lemma bases_of_nonempty_iff (c : string) :
  bases_of c <> [] <->
  In c [ "ADolbyIODebugGameModeBase"; "DolbyIODebugTarget";
         "DolbyIODebugEditorTarget"; "video_processor";
         "video_processor::exception"; "video_frame_buffer_i420";
         "video_frame_buffer_nv12"; "video_frame_buffer_argb";
         "video_frame_buffer_argb_interface";
         "video_frame_buffer_i420_interface";
         "video_frame_buffer_nv12_interface";
         "video_frame_buffer_native_interface"; "remote_video_track";
         "local_video_track"; "generic_video_track" ].
Proof.
  split.
  - intro H. exact (bases_in_nonempty_head class_heads c H).
  - intro H. cbn [In] in H.
    repeat (destruct H as [<- | H]; [vm_compute; discriminate|]).
    destruct H.
Qed.

Lemma height_without_bases (fuel : nat) (c : string) :
  bases_of c = [] -> height fuel c = O.
Proof.
  intro E. destruct fuel as [| k]; [reflexivity|].
  cbn [height]. rewrite E. reflexivity.
Qed.

Lemma ancestor_is_lower (c a : string) :
  ancestor c a -> (hierarchy_height a < hierarchy_height c)%nat.
Proof.
  induction 1 as [c b Hb | c b a Hb _ IH].
  - apply height_decreases_to_bases. exact Hb.
  - apply height_decreases_to_bases in Hb. lia.
Qed.


End HeadersFacts.

(** ** Ordering and equality of tracks and camera devices *)

Module MediaEngineFacts.
Import MediaEngine.

Lemma string_compare_refl (s : string) : String.compare s s = Eq.
Proof.
  pose proof (String.compare_antisym s s) as H.
  destruct (String.compare s s); simpl in H; congruence.
Qed.

Lemma ascii_compare_refl (a : Ascii.ascii) : Ascii.compare a a = Eq.
Proof. unfold Ascii.compare. apply N.compare_refl. Qed.

Lemma ascii_compare_lt_trans (a b c : Ascii.ascii) :
  Ascii.compare a b = Lt -> Ascii.compare b c = Lt -> Ascii.compare a c = Lt.
Proof.
  unfold Ascii.compare. rewrite !N.compare_lt_iff. apply N.lt_trans.
Qed.

Lemma string_compare_lt_trans (s1 : string) :
  forall s2 s3,
    String.compare s1 s2 = Lt -> String.compare s2 s3 = Lt ->
    String.compare s1 s3 = Lt.
Proof.
  induction s1 as [| a s1 IH]; intros [| b s2] [| c s3]; simpl;
    try discriminate; try reflexivity.
  destruct (Ascii.compare a b) eqn:Hab;
    destruct (Ascii.compare b c) eqn:Hbc; try discriminate.
  - apply Ascii.compare_eq_iff in Hab, Hbc. subst.
    rewrite ascii_compare_refl. apply IH.
  - apply Ascii.compare_eq_iff in Hab. subst. rewrite Hbc. reflexivity.
  - apply Ascii.compare_eq_iff in Hbc. subst. rewrite Hab. reflexivity.
  - rewrite (ascii_compare_lt_trans a b c Hab Hbc). reflexivity.
Qed.

Lemma string_lt_irrefl (s : string) : string_lt s s = false.
Proof. unfold string_lt, String.ltb. rewrite string_compare_refl. reflexivity. Qed.

Lemma string_lt_trans (a b c : string) :
  string_lt a b = true -> string_lt b c = true -> string_lt a c = true.
Proof.
  unfold string_lt, String.ltb. intros Hab Hbc.
  destruct (String.compare a b) eqn:Eab; try discriminate.
  destruct (String.compare b c) eqn:Ebc; try discriminate.
  rewrite (string_compare_lt_trans a b c Eab Ebc). reflexivity.
Qed.

Lemma string_lt_asym (a b : string) :
  string_lt a b = true -> string_lt b a = false.
Proof.
  unfold string_lt, String.ltb. rewrite (String.compare_antisym b a).
  destruct (String.compare a b); simpl; congruence.
Qed.

(** Neither string is smaller exactly when the two are equal. *)
Lemma string_eq_iff_incomparable (a b : string) :
  string_eq a b = negb (string_lt a b) && negb (string_lt b a).
Proof.
  unfold string_eq, string_lt, String.ltb.
  rewrite (String.compare_antisym b a).
  destruct (String.eqb_spec a b) as [-> | Hne].
  - rewrite string_compare_refl. reflexivity.
  - destruct (String.compare a b) eqn:E; simpl; try reflexivity.
    apply String.compare_eq_iff in E. contradiction.
Qed.

(** [video_track::operator==] is an equivalence that looks at
    [sdp_track_id] alone: tracks of different peers, streams, track ids or
    screen-share flags compare equal when their SDP track ids agree. *)
Theorem video_track_eq_is_sdp_track_id_equality :
  forall a b c : video_track,
    (video_track_eq a b = true <-> sdp_track_id a = sdp_track_id b)
    /\ video_track_eq a a = true
    /\ video_track_eq a b = video_track_eq b a
    /\ (video_track_eq a b = true -> video_track_eq b c = true ->
        video_track_eq a c = true)
    /\ (forall p s t sc,
          video_track_eq a (Build_video_track p s t (sdp_track_id a) sc)
            = true).
Proof.
  intros a b c. unfold video_track_eq, string_eq.
  split; [apply String.eqb_eq|].
  split; [apply String.eqb_refl|].
  split; [apply String.eqb_sym|].
  split.
  - rewrite !String.eqb_eq. congruence.
  - intros. simpl. apply String.eqb_refl.
Qed.

(** [video_track::operator<] is a strict total order on the SDP track ids:
    irreflexive, asymmetric and transitive, and two tracks are [==] exactly
    when neither is [<] the other, as an ordered container requires of its
    key. *)
Theorem video_track_lt_is_strict_order :
  forall a b c : video_track,
    video_track_lt a a = false
    /\ (video_track_lt a b = true -> video_track_lt b a = false)
    /\ (video_track_lt a b = true -> video_track_lt b c = true ->
        video_track_lt a c = true)
    /\ video_track_eq a b
       = negb (video_track_lt a b) && negb (video_track_lt b a).
Proof.
  intros a b c. unfold video_track_lt, video_track_eq.
  split; [apply string_lt_irrefl|].
  split; [apply string_lt_asym|].
  split; [apply string_lt_trans|].
  apply string_eq_iff_incomparable.
Qed.

(** A [generic_video_track] built from a remote track and one built from a
    local track carry different [remote] flags, yet compare equal whenever
    the two tracks have the same SDP track id: the inherited [operator==]
    does not see the flag. *)
Theorem generic_video_track_eq_ignores_remote :
  forall (r : remote_video_track) (l : local_video_track),
    sdp_track_id r = sdp_track_id l ->
    generic_video_track_eq (generic_of_remote r) (generic_of_local l) = true
    /\ remote (generic_of_remote r) <> remote (generic_of_local l)
    /\ generic_video_track_lt (generic_of_remote r) (generic_of_local l)
       = false
    /\ generic_video_track_lt (generic_of_local l) (generic_of_remote r)
       = false.
Proof.
  intros r l H.
  unfold generic_video_track_eq, generic_video_track_lt, video_track_eq,
    video_track_lt, string_eq. simpl. rewrite H.
  split; [apply String.eqb_refl|].
  split; [discriminate|].
  split; apply string_lt_irrefl.
Qed.

Lemma generic_video_track_eq_ignores_remote_witness :
  let r := Build_video_track "alice" "stream-1" "track-1" "sdp-7" false in
  let l := Build_video_track "bob" "stream-2" "track-2" "sdp-7" true in
  sdp_track_id r = sdp_track_id l
  /\ generic_video_track_eq (generic_of_remote r) (generic_of_local l) = true
  /\ remote (generic_of_remote r) <> remote (generic_of_local l).
Proof.
  intros r l. split; [reflexivity|].
  destruct (generic_video_track_eq_ignores_remote r l eq_refl)
    as [Heq [Hflag _]].
  split; [exact Heq | exact Hflag].
Defined.

(** [camera_device]'s [operator<] is a strict total order on [unique_id]
    and its [operator==] holds exactly when neither device is [<] the
    other; the display name plays no part, so a renamed device is the same
    device. *)
Theorem camera_device_order_is_on_unique_id :
  forall a b c : camera_device,
    camera_device_lt a a = false
    /\ (camera_device_lt a b = true -> camera_device_lt b a = false)
    /\ (camera_device_lt a b = true -> camera_device_lt b c = true ->
        camera_device_lt a c = true)
    /\ camera_device_eq a b
       = negb (camera_device_lt a b) && negb (camera_device_lt b a)
    /\ (camera_device_eq a b = true <-> unique_id a = unique_id b)
    /\ (forall name,
          camera_device_eq a (Build_camera_device name (unique_id a)) = true).
Proof.
  intros a b c. unfold camera_device_lt, camera_device_eq.
  split; [apply string_lt_irrefl|].
  split; [apply string_lt_asym|].
  split; [apply string_lt_trans|].
  split; [apply string_eq_iff_incomparable|].
  split; [apply String.eqb_eq|].
  intro name. simpl. apply String.eqb_refl.
Qed.

End MediaEngineFacts.

(** ** deprecated_field *)

Module DeprecatedFieldFacts.
Import DeprecatedField.

(** The conversion to [std::optional] agrees with [has_value] and
    [operator*]: it is empty exactly when [has_value] is false, and
    otherwise holds what [operator*] returns; a default-constructed field
    converts to the empty optional, a field constructed from [v] to [v]. *)
Theorem to_optional_agrees_with_has_value :
  forall (T : Type) (T_default : T) (f : deprecated_field T) (v : T),
    (to_optional f = None <-> has_value f = false)
    /\ (to_optional f = Some v <-> has_value f = true /\ deref f = v)
    /\ to_optional (make_default T_default) = None
    /\ to_optional (make_value v) = Some v.
Proof.
  intros T T_default [h x] v. unfold to_optional, has_value, deref. simpl.
  split; [destruct h; split; congruence|].
  split; [|split; reflexivity].
  destruct h; split.
  - intro H. injection H as ->. split; reflexivity.
  - intros [_ ->]. reflexivity.
  - discriminate.
  - intros [H _]. discriminate H.
Qed.

(** Assigning through the mutable [operator*] stores the value but never
    marks the field as set: after [*f = v] on a field that holds no value,
    [operator*] returns [v] while [has_value] is still false and the
    conversion to [std::optional] is still empty. *)
Theorem assign_through_deref_does_not_set :
  forall (T : Type) (f : deprecated_field T) (v : T),
    has_value f = false ->
    deref (assign_through_deref f v) = v
    /\ has_value (assign_through_deref f v) = false
    /\ to_optional (assign_through_deref f v) = None.
Proof.
  intros T [h x] v. unfold has_value, to_optional, deref. simpl.
  intros ->. repeat split.
Qed.

Lemma assign_through_deref_does_not_set_witness :
  has_value (make_default 0%Z) = false
  /\ deref (assign_through_deref (make_default 0%Z) 48000%Z) = 48000%Z
  /\ has_value (assign_through_deref (make_default 0%Z) 48000%Z) = false
  /\ to_optional (assign_through_deref (make_default 0%Z) 48000%Z) = None.
Proof.
  split; [reflexivity|].
  apply (assign_through_deref_does_not_set Z (make_default 0%Z) 48000%Z).
  reflexivity.
Defined.

End DeprecatedFieldFacts.

(** ** audio_capture_mode *)

Module AudioCaptureModeFacts.
Import AudioCaptureMode.

Lemma noise_reduction_value_inj (a b : noise_reduction) :
  noise_reduction_value a = noise_reduction_value b -> a = b.
Proof. destruct a, b; simpl; intro H; solve [reflexivity | discriminate H]. Qed.

Lemma voice_font_value_inj (a b : voice_font) :
  voice_font_value a = voice_font_value b -> a = b.
Proof. destruct a, b; simpl; intro H; solve [reflexivity | discriminate H]. Qed.

(** [standard::operator==] holds exactly when the two modes are the same
    mode: unlike the track and device comparisons it misses no member.
    A mode built without a voice font equals the one built with
    [voice_font::none], and differs from one built with another font. *)
Theorem standard_eq_decides_identity :
  forall (a b : standard) (n : noise_reduction) (v : voice_font),
    (standard_eq a b = true <-> a = b)
    /\ standard_eq (make_standard_default n) (make_standard n none) = true
    /\ (standard_eq (make_standard_default n) (make_standard n v) = true <->
          v = none).
Proof.
  intros [an av] [bn bv] n v.
  assert (Hiff : forall x y : standard, standard_eq x y = true <-> x = y).
  { intros [xn xv] [yn yv]. unfold standard_eq. simpl.
    rewrite andb_true_iff, !Z.eqb_eq. split.
    - intros [Hn Hv]. apply noise_reduction_value_inj in Hn.
      apply voice_font_value_inj in Hv. subst. reflexivity.
    - intro H. injection H as -> ->. split; reflexivity. }
  split; [apply Hiff|].
  split; [apply Hiff; reflexivity|].
  rewrite Hiff. unfold make_standard_default, make_standard. split.
  - intro H. injection H as <-. reflexivity.
  - intros ->. reflexivity.
Qed.

End AudioCaptureModeFacts.

(** ** More on logger_sink, is_ended and the targets *)

Module LoggerSinkOrderFacts.
Import LoggerSink.

(** Raising the level of a sink only enables more: whatever was enabled
    before [set_level l2] is still enabled after it when [l2] is not below
    the level the sink had. *)
Theorem set_level_higher_keeps_enabled :
  forall (log_level : Type) (level_value : log_level -> Z)
         (s : logger_sink log_level) (l2 x : log_level),
    level_value (get_level s) <= level_value l2 ->
    is_enabled level_value s x = true ->
    is_enabled level_value (set_level s l2) x = true.
Proof.
  intros log_level level_value s l2 x Hle.
  rewrite !LoggerSinkFacts.is_enabled_spec. simpl. lia.
Qed.

Lemma set_level_higher_keeps_enabled_witness :
  (fun z : Z => z) (get_level (make_logger_sink 2)) <= (fun z : Z => z) 4
  /\ is_enabled (fun z : Z => z) (make_logger_sink 2) 1 = true
  /\ is_enabled (fun z : Z => z) (set_level (make_logger_sink 2) 4) 1 = true.
Proof.
  split; [simpl; lia|]. split; [reflexivity|].
  apply (set_level_higher_keeps_enabled Z (fun z => z)
           (make_logger_sink 2) 4 1); [simpl; lia | reflexivity].
Defined.

(** Levels are linearly ordered by the sinks: of any two levels, a sink at
    one enables the other or the other way round, and both hold only for
    levels of the same value. *)
Theorem sinks_order_levels_linearly :
  forall (log_level : Type) (level_value : log_level -> Z)
         (a b : log_level),
    (is_enabled level_value (make_logger_sink a) b = true
     \/ is_enabled level_value (make_logger_sink b) a = true)
    /\ (is_enabled level_value (make_logger_sink a) b = true ->
        is_enabled level_value (make_logger_sink b) a = true ->
        level_value a = level_value b).
Proof.
  intros log_level level_value a b.
  rewrite !LoggerSinkFacts.is_enabled_spec. simpl. lia.
Qed.

End LoggerSinkOrderFacts.

Module ConferenceOrderFacts.
Import Conference.

(** The ended statuses are the ones declared from [left] onward: [is_ended]
    is true exactly when the status's enumerator value is at least that of
    [left], so the statuses before it in the enumeration are never ended. *)
Theorem is_ended_iff_not_before_left :
  forall e : conference_status_updated,
    is_ended e = (underlying left <=? underlying (status e)).
Proof. intros [s i]. destruct s; reflexivity. Qed.

End ConferenceOrderFacts.

Module BuildTargetsOrderFacts.
Import BuildTargets.


End BuildTargetsOrderFacts.
